(** * Gate controller firmware (portones-fc-firmware, src/main.cpp)

    Shallow embedding of the ESP32 gate controller: the single global gate
    record ([currentState], [gateOpenTime] and the servo position), the MQTT
    callback, the command processor, [openGate], [closeGate] and the
    non-blocking scheduler [updateGateState].

    Statements of the C++ code run in a small state/writer monad over the
    globals; the observable effects are the servo writes and the MQTT
    publications.  Serial logging has no observable effect on the gate and
    is left out.  [millis()] is passed in as the clock reading [now] of the
    call that samples it; [unsigned long] is 32 bits wide on the ESP32. *)

From Stdlib Require Import ZArith String List Bool Lia.
Import ListNotations.
Local Open Scope Z_scope.
Local Open Scope string_scope.
Local Open Scope list_scope.

(** ** Data model *)

(** [enum GateState { IDLE, OPENING, OPEN, CLOSING }] *)
Inductive GateState := IDLE | OPENING | OPEN | CLOSING.

Definition GateState_eqb (a b : GateState) : bool :=
  match a, b with
  | IDLE, IDLE | OPENING, OPENING | OPEN, OPEN | CLOSING, CLOSING => true
  | _, _ => false
  end.

(** [unsigned long] arithmetic: 32-bit, wrapping. *)
Definition ULONG_MOD : Z := 2 ^ 32.

(** [a - b] on two [unsigned long] values. *)
Definition ulong_sub (a b : Z) : Z := (a - b) mod ULONG_MOD.

(** [const unsigned long GATE_OPEN_DURATION = 5000;] *)
Definition GATE_OPEN_DURATION : Z := 5000.

(** Servo positions (degrees). *)
Definition SERVO_CLOSED_POSITION : Z := 0.
Definition SERVO_OPEN_POSITION : Z := 90.

(** Topic of every status publication. *)
Definition STATUS_TOPIC : string := "portones/gate/status".

(** The globals of main.cpp that the gate logic reads and writes:
    [currentState], [gateOpenTime] and the last position written to
    [gateServo]. *)
Record Globals := mkGlobals {
  currentState : GateState;
  gateOpenTime : Z;
  servoPos : Z
}.

(** State after [setup()]: [currentState = IDLE], [gateOpenTime = 0],
    servo written to [SERVO_CLOSED_POSITION]. *)
Definition init_globals : Globals :=
  mkGlobals IDLE 0 SERVO_CLOSED_POSITION.

(** Observable effects.  [Publish topic s] is
    [mqttClient.publish(topic, "{\"status\":\"s\"}")]: the JSON object whose
    only member is [status] with value [s]. *)
Inductive Effect :=
  | ServoWrite (deg : Z)
  | Publish (topic : string) (status : string).

(** ** A state/writer monad for the statements of main.cpp *)

Definition Prog := Globals -> Globals * list Effect.

Definition skip : Prog := fun g => (g, []).

Definition seq (p q : Prog) : Prog :=
  fun g =>
    let (g1, e1) := p g in
    let (g2, e2) := q g1 in
    (g2, e1 ++ e2).

Declare Scope prog_scope.
Notation "p ;; q" := (seq p q) (at level 61, right associativity) : prog_scope.
Local Open Scope prog_scope.

(** [currentState = s;] *)
Definition set_state (s : GateState) : Prog :=
  fun g => (mkGlobals s (gateOpenTime g) (servoPos g), []).

(** [gateOpenTime = t;] *)
Definition set_open_time (t : Z) : Prog :=
  fun g => (mkGlobals (currentState g) t (servoPos g), []).

(** [gateServo.write(d);] *)
Definition servo_write (d : Z) : Prog :=
  fun g => (mkGlobals (currentState g) (gateOpenTime g) d, [ServoWrite d]).

(** [mqttClient.publish(topic, {"status": s})] *)
Definition publish (topic status : string) : Prog :=
  fun g => (g, [Publish topic status]).

(** ** The gate logic *)

(** [void openGate()]; [now] is the [millis()] reading of line 214. *)
Definition openGate (now : Z) : Prog :=
  set_state OPENING ;;
  servo_write SERVO_OPEN_POSITION ;;
  set_state OPEN ;;
  set_open_time now ;;
  publish STATUS_TOPIC "open".

(** [void closeGate()] *)
Definition closeGate : Prog :=
  set_state CLOSING ;;
  servo_write SERVO_CLOSED_POSITION ;;
  set_state IDLE ;;
  publish STATUS_TOPIC "closed".

(** [void updateGateState()]; [now] is the [millis()] reading of line 244. *)
Definition updateGateState (now : Z) : Prog :=
  fun g =>
    if GateState_eqb (currentState g) OPEN then
      if ulong_sub now (gateOpenTime g) >=? GATE_OPEN_DURATION
      then closeGate g
      else (g, [])
    else (g, []).

(** [void processGateCommand(const char* action)]: [strcmp(action, "OPEN") == 0]
    is string equality on the C string. *)
Definition processGateCommand (action : string) (now : Z) : Prog :=
  if String.eqb action "OPEN" then
    fun g =>
      if GateState_eqb (currentState g) IDLE then openGate now g
      else (g, [])
  else skip.

(** A deserialized command document.  Each field is the value of
    [doc["key"]] read as [const char*] (for [gateId], as an integer):
    [None] when the key is missing or of another type. *)
Record Command := mkCommand {
  cmd_gateId : option Z;
  cmd_action : option string;
  cmd_timestamp : option string
}.

(** [void mqttCallback(...)]: the payload is [None] when [deserializeJson]
    fails.  Only [action] is passed on; [timestamp] is only logged. *)
Definition mqttCallback (payload : option Command) (now : Z) : Prog :=
  match payload with
  | None => skip
  | Some doc =>
      match cmd_action doc with
      | Some action => processGateCommand action now
      | None => skip
      end
  end.

(** [void reconnectMQTT()]: the connect loop retries until it succeeds
    (failed attempts only log and wait), then publishes the online status. *)
Definition reconnectMQTT : Prog :=
  publish STATUS_TOPIC "online".

(** The events of the main loop: a (re)connection, a message delivered by
    [mqttClient.loop()] with the clock reading at that time, and a call of
    [updateGateState()] with its clock reading. *)
Inductive Input :=
  | Reconnect
  | Message (now : Z) (payload : option Command)
  | Tick (now : Z).

Definition step (i : Input) : Prog :=
  match i with
  | Reconnect => reconnectMQTT
  | Message now p => mqttCallback p now
  | Tick now => updateGateState now
  end.

Fixpoint run (l : list Input) : Prog :=
  match l with
  | [] => skip
  | i :: l' => step i ;; run l'
  end.


(** The globals after [closeGate] from [g]. *)
Definition closed_globals (g : Globals) : Globals :=
  mkGlobals IDLE (gateOpenTime g) SERVO_CLOSED_POSITION.

Definition close_effects : list Effect :=
  [ServoWrite SERVO_CLOSED_POSITION; Publish STATUS_TOPIC "closed"].

Definition open_effects : list Effect :=
  [ServoWrite SERVO_OPEN_POSITION; Publish STATUS_TOPIC "open"].

(** Status strings of the open/close publications, in order. *)
Fixpoint oc_pubs (es : list Effect) : list string :=
  match es with
  | [] => []
  | Publish t st :: es' =>
      if String.eqb t STATUS_TOPIC
         && (String.eqb st "open" || String.eqb st "closed")
      then st :: oc_pubs es'
      else oc_pubs es'
  | ServoWrite _ :: es' => oc_pubs es'
  end.

(** [alternates true l]: [l] is "open", "closed", "open", ... (a prefix of
    the alternation that starts with "open"). *)
Fixpoint alternates (expect_open : bool) (l : list string) : bool :=
  match l with
  | [] => true
  | st :: l' =>
      if expect_open then String.eqb st "open" && alternates false l'
      else String.eqb st "closed" && alternates true l'
  end.

(** A status publication carries one of the code's status strings. *)
Definition status_ok (e : Effect) : Prop :=
  match e with
  | ServoWrite _ => True
  | Publish t st => t = STATUS_TOPIC /\ In st ["online"; "open"; "closed"]
  end.

(** The state at a loop boundary is [IDLE] or [OPEN]. *)
Definition phase_ok (g : Globals) : Prop :=
  currentState g = IDLE \/ currentState g = OPEN.

(** Loop events before the deadline of a gate opened at clock reading [t0]:
    messages of any kind, and ticks whose elapsed time is below the open
    duration. *)
Definition before_deadline (t0 : Z) (i : Input) : Prop :=
  match i with
  | Reconnect => False
  | Message _ _ => True
  | Tick t => ulong_sub t t0 < GATE_OPEN_DURATION
  end.

(** The [millis()] reading at real time [T] (ms since boot). *)
Definition millis_at (T : Z) : Z := T mod ULONG_MOD.

(** The command document [{"action":"OPEN"}] with optional [gateId]. *)
Definition open_cmd (gid : option Z) : option Command :=
  Some (mkCommand gid (Some "OPEN") None).

(** ** Boot and connection layer *)

(** [const char* MQTT_TOPIC = "portones/gate/command";] *)
Definition MQTT_TOPIC : string := "portones/gate/command".

(** Effects of [setup()], [setupWiFi()] and the connect loop of
    [reconnectMQTT()]: gate effects, [mqttClient.subscribe], [delay(ms)] and
    [ESP.restart()]. *)
Inductive BootEffect :=
  | Gate (e : Effect)
  | Subscribe (topic : string)
  | Delay (ms : Z)
  | Restart.

(** The [while] loop of [setupWiFi()]: the [k]-th call of [WiFi.status()]
    inside the loop is [status k], and [k] equals [attempts] there.  [fuel]
    is [20 - attempts], so [fuel = 0] is [attempts < 20] failing.  Returns
    the final [attempts]. *)
Fixpoint wifi_loop (fuel : nat) (status : nat -> bool) (attempts : nat) : nat :=
  if status attempts then attempts
  else match fuel with
       | O => attempts
       | S f => wifi_loop f status (S attempts)
       end.

(** [void setupWiFi()]: one [delay(500)] per loop iteration, then the final
    [WiFi.status()] (call number [attempts + 1]); on failure [delay(5000)]
    and [ESP.restart()].  The boolean is [true] when setup goes on. *)
Definition setupWiFi (status : nat -> bool) : list BootEffect * bool :=
  let attempts := wifi_loop 20 status 0 in
  if status (S attempts) then (repeat (Delay 500) attempts, true)
  else (repeat (Delay 500) attempts ++ [Delay 5000; Restart], false).

(** The [while (!mqttClient.connected())] loop of [reconnectMQTT()].  Each
    iteration consumes one oracle entry: the [connected()] result and, when
    it is [false], the [connect(...)] result.  A successful connect
    subscribes (its result is only logged) and publishes the online status;
    a failed one waits 5 s.  [None]: the oracle ran out while the loop still
    retries. *)
Fixpoint reconnect_loop (oracle : list (bool * bool)) : option (list BootEffect) :=
  match oracle with
  | [] => None
  | (true, _) :: _ => Some []
  | (false, true) :: rest =>
      option_map (app [Subscribe MQTT_TOPIC; Gate (Publish STATUS_TOPIC "online")])
                 (reconnect_loop rest)
  | (false, false) :: rest =>
      option_map (cons (Delay 5000)) (reconnect_loop rest)
  end.



(** Total of the [delay] calls in a list of effects. *)
Fixpoint delay_total (es : list BootEffect) : Z :=
  match es with
  | [] => 0
  | Delay ms :: es' => ms + delay_total es'
  | _ :: es' => delay_total es'
  end.



(** The servo position agrees with the state: closed when [IDLE], open when
    [OPEN]. *)
Definition servo_consistent (g : Globals) : Prop :=
  (currentState g = IDLE /\ servoPos g = SERVO_CLOSED_POSITION)
  \/ (currentState g = OPEN /\ servoPos g = SERVO_OPEN_POSITION).

(** The effect blocks a loop event can produce. *)
Definition effect_block (b : list Effect) : Prop :=
  b = open_effects \/ b = close_effects \/ b = [Publish STATUS_TOPIC "online"].

(** The gate effects among boot effects, in order. *)
Fixpoint gate_effects (es : list BootEffect) : list Effect :=
  match es with
  | [] => []
  | Gate e :: es' => e :: gate_effects es'
  | _ :: es' => gate_effects es'
  end.

(** The effect blocks of one iteration of the [reconnectMQTT()] loop. *)
Definition reconnect_block (b : list BootEffect) : Prop :=
  b = [Delay 5000]
  \/ b = [Subscribe MQTT_TOPIC; Gate (Publish STATUS_TOPIC "online")].

(** ** Basic lemmas *)

Ltac status_tac :=
  repeat apply Forall_cons; try apply Forall_nil; simpl; intuition auto.

Lemma GateState_eqb_eq a b : GateState_eqb a b = true <-> a = b.
Proof. destruct a, b; simpl; split; congruence. Qed.

Example open_from_init :
  openGate 7 init_globals = (mkGlobals OPEN 7 90, open_effects).
Proof. reflexivity. Qed.

Example tick_closes :
  updateGateState 5007 (mkGlobals OPEN 7 90) = (mkGlobals IDLE 7 0, close_effects).
Proof. reflexivity. Qed.

Example tick_wraps :
  updateGateState 100 (mkGlobals OPEN (2^32 - 4900) 90)
  = (mkGlobals IDLE (2^32 - 4900) 0, close_effects).
Proof. vm_compute. reflexivity. Qed.

Lemma openGate_eq now g :
  openGate now g = (mkGlobals OPEN now SERVO_OPEN_POSITION, open_effects).
Proof. destruct g; reflexivity. Qed.

Lemma closeGate_eq g : closeGate g = (closed_globals g, close_effects).
Proof. destruct g; reflexivity. Qed.

Lemma tick_not_open t g :
  currentState g <> OPEN -> updateGateState t g = (g, []).
Proof.
  intro H; unfold updateGateState.
  destruct (GateState_eqb (currentState g) OPEN) eqn:E; [|reflexivity].
  apply GateState_eqb_eq in E; contradiction.
Qed.

Lemma tick_before t g :
  ulong_sub t (gateOpenTime g) < GATE_OPEN_DURATION ->
  updateGateState t g = (g, []).
Proof.
  intro H; unfold updateGateState.
  destruct (GateState_eqb (currentState g) OPEN); [|reflexivity].
  destruct (Z.geb_spec (ulong_sub t (gateOpenTime g)) GATE_OPEN_DURATION);
    [lia | reflexivity].
Qed.

Lemma tick_after t g :
  currentState g = OPEN ->
  ulong_sub t (gateOpenTime g) >= GATE_OPEN_DURATION ->
  updateGateState t g = (closed_globals g, close_effects).
Proof.
  intros Hs H; unfold updateGateState; rewrite Hs; simpl.
  destruct (Z.geb_spec (ulong_sub t (gateOpenTime g)) GATE_OPEN_DURATION);
    [apply closeGate_eq | lia].
Qed.

Lemma run_app l1 l2 g :
  run (l1 ++ l2) g =
  (let (g1, e1) := run l1 g in let (g2, e2) := run l2 g1 in (g2, e1 ++ e2)).
Proof.
  revert g; induction l1 as [|i l1 IH]; intro g; simpl.
  - unfold skip; destruct (run l2 g); reflexivity.
  - unfold seq; destruct (step i g) as [g1 e1].
    rewrite IH; destruct (run l1 g1) as [g2 e2]; destruct (run l2 g2) as [g3 e3].
    rewrite app_assoc; reflexivity.
Qed.

Lemma run_ticks_idle g ts :
  currentState g = IDLE -> run (map Tick ts) g = (g, []).
Proof.
  intro H; induction ts as [|t ts IH]; simpl; [reflexivity|].
  unfold seq; rewrite tick_not_open by congruence; rewrite IH; reflexivity.
Qed.

Lemma oc_pubs_app e1 e2 : oc_pubs (e1 ++ e2) = oc_pubs e1 ++ oc_pubs e2.
Proof.
  induction e1 as [|[d|t st] e1 IH]; simpl; try rewrite IH; try reflexivity.
  destruct (_ && _); simpl; rewrite ?IH; reflexivity.
Qed.

Lemma step_before_deadline g i :
  currentState g = OPEN ->
  before_deadline (gateOpenTime g) i ->
  step i g = (g, []).
Proof.
  intros Hs Hi; destruct i as [|now p|t]; simpl in Hi; [contradiction| |].
  - destruct p as [[gid [a|] ts]|]; simpl; try reflexivity.
    unfold processGateCommand; destruct (String.eqb a "OPEN"); [|reflexivity].
    rewrite Hs; reflexivity.
  - apply tick_before; exact Hi.
Qed.

Lemma run_before_deadline g pre :
  currentState g = OPEN ->
  Forall (before_deadline (gateOpenTime g)) pre ->
  run pre g = (g, []).
Proof.
  intros Hs HF; induction HF as [|i pre Hi HF IH]; [reflexivity|].
  simpl; unfold seq.
  rewrite (step_before_deadline g i Hs Hi), IH; reflexivity.
Qed.

(** ** C1 *)

(** C1 (counterexample): the firmware does not read any [gateId]; the
    command [{gateId:9, action:"OPEN"}] on the idle gate opens it, moves the
    servo and publishes a status. *)
Lemma C1_gateId_9_opens :
  step (Message 0 (open_cmd (Some 9))) init_globals
  = (mkGlobals OPEN 0 SERVO_OPEN_POSITION, open_effects)
  /\ mkGlobals OPEN 0 SERVO_OPEN_POSITION <> init_globals
  /\ open_effects <> [].
Proof. split; [reflexivity | split; discriminate]. Qed.

(** C1 (amended): the command handler never reads [gateId]: its outcome is
    the same for every [gateId], and an ["OPEN"] command with any [gateId]
    (9 included) opens the idle gate, drives the servo to open and
    publishes the open status. *)
Theorem C1_gateId_ignored gid ts now g :
  currentState g = IDLE ->
  mqttCallback (Some (mkCommand gid (Some "OPEN") ts)) now g
  = (mkGlobals OPEN now SERVO_OPEN_POSITION, open_effects)
  /\ (forall gid1 gid2 a ts', mqttCallback (Some (mkCommand gid1 a ts')) now
                             = mqttCallback (Some (mkCommand gid2 a ts')) now).
Proof.
  intro Hs; split; [|reflexivity].
  simpl; unfold processGateCommand; simpl; rewrite Hs; apply openGate_eq.
Qed.

Lemma C1_gateId_ignored_witness :
  currentState init_globals = IDLE
  /\ mqttCallback (Some (mkCommand (Some 9) (Some "OPEN") None)) 0 init_globals
     = (mkGlobals OPEN 0 SERVO_OPEN_POSITION, open_effects).
Proof.
  split; [reflexivity|].
  exact (proj1 (C1_gateId_ignored (Some 9) None 0 init_globals eq_refl)).
Defined.

(** ** C2 *)

(** C2 (counterexample): the open transition publishes the status ["open"],
    which is none of ["online"], ["OPEN"], ["CLOSED"]. *)
Lemma C2_open_status_lowercase :
  In (Publish STATUS_TOPIC "open")
     (snd (run [Message 0 (open_cmd None)] init_globals))
  /\ ~ In "open" ["online"; "OPEN"; "CLOSED"].
Proof.
  split; [simpl; auto|].
  simpl; intros [H|[H|[H|H]]]; discriminate || contradiction.
Qed.

(** C2 (amended): every publication of any run goes to the status topic with
    a status among ["online"], ["open"], ["closed"]; the open transition
    publishes ["open"] and the close transition ["closed"]. *)
Theorem C2_status_strings :
  (forall l g, Forall status_ok (snd (run l g)))
  /\ (forall now g, snd (openGate now g)
                    = [ServoWrite SERVO_OPEN_POSITION; Publish STATUS_TOPIC "open"])
  /\ (forall g, snd (closeGate g)
                = [ServoWrite SERVO_CLOSED_POSITION; Publish STATUS_TOPIC "closed"]).
Proof.
  split; [|split; intros; [rewrite openGate_eq | rewrite closeGate_eq];
           reflexivity].
  assert (Hopen : forall now g, Forall status_ok (snd (openGate now g))).
  { intros; rewrite openGate_eq; status_tac. }
  assert (Hstep : forall i g, Forall status_ok (snd (step i g))).
  { intros [|now p|t] g; simpl.
    - status_tac.
    - destruct p as [[gid [a|] ts]|]; simpl; try constructor.
      unfold processGateCommand; destruct (String.eqb a "OPEN"); [|constructor].
      destruct (GateState_eqb (currentState g) IDLE); [apply Hopen|constructor].
    - unfold updateGateState.
      destruct (GateState_eqb (currentState g) OPEN); [|constructor].
      destruct (_ >=? _); [|constructor].
      rewrite closeGate_eq; status_tac. }
  induction l as [|i l IH]; intro g; simpl; [constructor|].
  unfold seq; specialize (Hstep i g); destruct (step i g) as [g1 e1].
  specialize (IH g1); destruct (run l g1) as [g2 e2]; simpl in *.
  apply Forall_app; split; assumption.
Qed.

(** ** C3 *)

(** C3: for a gate opened at clock reading [t0] (with [D = 5000]), ticks
    whose elapsed time [t - t0] (unsigned subtraction) is below [D] leave
    the gate open and untouched; the first tick with [t - t0 >= D] closes
    it (servo to closed, ["closed"] published), and later ticks do nothing,
    so the close happens exactly once. *)
Theorem C3_deadline g pre t post :
  currentState g = OPEN ->
  Forall (fun t' => ulong_sub t' (gateOpenTime g) < GATE_OPEN_DURATION) pre ->
  ulong_sub t (gateOpenTime g) >= GATE_OPEN_DURATION ->
  run (map Tick pre) g = (g, [])
  /\ updateGateState t g = (closed_globals g, close_effects)
  /\ run (map Tick (pre ++ t :: post)) g = (closed_globals g, close_effects).
Proof.
  intros Hs Hpre Ht.
  assert (Hp : run (map Tick pre) g = (g, [])).
  { apply run_before_deadline; [exact Hs|].
    apply Forall_map; exact Hpre. }
  assert (Hc : updateGateState t g = (closed_globals g, close_effects))
    by (apply tick_after; assumption).
  split; [exact Hp | split; [exact Hc|]].
  rewrite map_app, run_app, Hp; simpl; unfold seq; rewrite Hc.
  rewrite run_ticks_idle by reflexivity; reflexivity.
Qed.

Lemma C3_deadline_witness :
  run (map Tick [1000; 4000; 5999]) (mkGlobals OPEN 1000 SERVO_OPEN_POSITION)
  = (mkGlobals OPEN 1000 SERVO_OPEN_POSITION, [])
  /\ run (map Tick ([1000; 4000; 5999] ++ 6000 :: [6010; 9000]))
         (mkGlobals OPEN 1000 SERVO_OPEN_POSITION)
     = (closed_globals (mkGlobals OPEN 1000 SERVO_OPEN_POSITION), close_effects).
Proof.
  destruct (C3_deadline (mkGlobals OPEN 1000 SERVO_OPEN_POSITION)
              [1000; 4000; 5999] 6000 [6010; 9000]) as [H1 [_ H3]].
  - reflexivity.
  - repeat constructor; vm_compute; reflexivity.
  - vm_compute; discriminate.
  - split; assumption.
Defined.

(** ** C4 *)

(** C4: while the gate is [OPEN], any message (an ["OPEN"] command
    included) leaves the globals, [gateOpenTime] included, unchanged and
    has no effect; so after any mix of such messages and ticks before the
    deadline set by the first OPEN, the first tick at or past that deadline
    closes the gate once. *)
Theorem C4_busy_open_ignored g pre t :
  currentState g = OPEN ->
  Forall (before_deadline (gateOpenTime g)) pre ->
  ulong_sub t (gateOpenTime g) >= GATE_OPEN_DURATION ->
  (forall now p, step (Message now p) g = (g, []))
  /\ run pre g = (g, [])
  /\ run (pre ++ [Tick t]) g = (closed_globals g, close_effects).
Proof.
  intros Hs Hpre Ht.
  assert (Hp : run pre g = (g, [])) by (apply run_before_deadline; assumption).
  split; [|split; [exact Hp|]].
  - intros now p.
    apply (step_before_deadline g (Message now p) Hs); exact I.
  - rewrite run_app, Hp; simpl; unfold seq, skip.
    rewrite (tick_after t g Hs Ht); reflexivity.
Qed.

(** The busy-drop scenario: OPEN at [t = 0], OPEN again at [t = 100], the
    gate still closes once at [t = 5000]. *)
Lemma C4_busy_open_ignored_witness :
  fst (step (Message 0 (open_cmd (Some 1))) init_globals)
    = mkGlobals OPEN 0 SERVO_OPEN_POSITION
  /\ step (Message 100 (open_cmd (Some 1))) (mkGlobals OPEN 0 SERVO_OPEN_POSITION)
     = (mkGlobals OPEN 0 SERVO_OPEN_POSITION, [])
  /\ run [Message 100 (open_cmd (Some 1)); Tick 100; Tick 4999; Tick 5000]
         (mkGlobals OPEN 0 SERVO_OPEN_POSITION)
     = (mkGlobals IDLE 0 SERVO_CLOSED_POSITION, close_effects).
Proof.
  destruct (C4_busy_open_ignored (mkGlobals OPEN 0 SERVO_OPEN_POSITION)
              [Message 100 (open_cmd (Some 1)); Tick 100; Tick 4999] 5000)
    as [H1 [_ H3]].
  - reflexivity.
  - repeat constructor; vm_compute; reflexivity.
  - vm_compute; discriminate.
  - split; [reflexivity | split; [apply H1 | exact H3]].
Defined.

(** ** C5 *)

(** C5: with a 32-bit wrapping [millis()], the unsigned difference of the
    clock readings at real times [T0 <= T] equals the real elapsed time
    [T - T0] whenever it is below one clock period (about 49.7 days), across
    a wraparound too; so a gate opened at [T0] is closed by a tick at [T]
    exactly when [T - T0 >= D]. *)
Theorem C5_wraparound T0 T g :
  T0 <= T < T0 + ULONG_MOD ->
  currentState g = OPEN ->
  gateOpenTime g = millis_at T0 ->
  ulong_sub (millis_at T) (millis_at T0) = T - T0
  /\ updateGateState (millis_at T) g
     = (if Z.ltb (T - T0) GATE_OPEN_DURATION then (g, [])
        else (closed_globals g, close_effects)).
Proof.
  intros HT Hs Ho.
  assert (Hsub : ulong_sub (millis_at T) (millis_at T0) = T - T0).
  { unfold ulong_sub, millis_at; rewrite <- Zminus_mod.
    apply Z.mod_small; lia. }
  split; [exact Hsub|].
  destruct (Z.ltb_spec (T - T0) GATE_OPEN_DURATION).
  - apply tick_before; rewrite Ho, Hsub; assumption.
  - apply tick_after; [exact Hs | rewrite Ho, Hsub; lia].
Qed.

(** Opened 100 ms before the 32-bit counter wraps; ticks 4999 ms and
    5000 ms later. *)
Lemma C5_wraparound_witness :
  millis_at (ULONG_MOD + 4899) = 4899
  /\ updateGateState (millis_at (ULONG_MOD + 4899))
       (mkGlobals OPEN (millis_at (ULONG_MOD - 100)) SERVO_OPEN_POSITION)
     = (mkGlobals OPEN (millis_at (ULONG_MOD - 100)) SERVO_OPEN_POSITION, [])
  /\ updateGateState (millis_at (ULONG_MOD + 4900))
       (mkGlobals OPEN (millis_at (ULONG_MOD - 100)) SERVO_OPEN_POSITION)
     = (closed_globals (mkGlobals OPEN (millis_at (ULONG_MOD - 100))
                          SERVO_OPEN_POSITION), close_effects).
Proof.
  split; [vm_compute; reflexivity|].
  split.
  - refine (proj2 (C5_wraparound (ULONG_MOD - 100) (ULONG_MOD + 4899)
             (mkGlobals OPEN (millis_at (ULONG_MOD - 100)) SERVO_OPEN_POSITION)
             _ eq_refl eq_refl)).
    split; [apply Z.leb_le | apply Z.ltb_lt]; vm_compute; reflexivity.
  - refine (proj2 (C5_wraparound (ULONG_MOD - 100) (ULONG_MOD + 4900)
             (mkGlobals OPEN (millis_at (ULONG_MOD - 100)) SERVO_OPEN_POSITION)
             _ eq_refl eq_refl)).
    split; [apply Z.leb_le | apply Z.ltb_lt]; vm_compute; reflexivity.
Defined.

(** ** C6 *)

(** C6: once the gate is [IDLE] (as after [closeGate]), any number of ticks
    leave the globals unchanged and produce no servo write and no
    publication. *)
Theorem C6_idle_ticks_noop g ts :
  currentState g = IDLE ->
  run (map Tick ts) g = (g, []).
Proof. apply run_ticks_idle. Qed.

Lemma C6_idle_ticks_noop_witness :
  run (map Tick [5000; 5010; 10000; 1])
      (closed_globals (mkGlobals OPEN 0 SERVO_OPEN_POSITION))
  = (closed_globals (mkGlobals OPEN 0 SERVO_OPEN_POSITION), []).
Proof. apply C6_idle_ticks_noop; reflexivity. Defined.

(** ** C7 *)

(** C7: a command whose action is not exactly ["OPEN"] changes nothing and
    has no effect; and no message at all can close the gate: a message
    never leads to [IDLE] from another state, never writes the closed servo
    position and never publishes ["closed"]. *)
Theorem C7_only_open_action a now g :
  a <> "OPEN" ->
  processGateCommand a now g = (g, [])
  /\ (forall gid ts, mqttCallback (Some (mkCommand gid (Some a) ts)) now g = (g, []))
  /\ (forall p now' g',
        (currentState (fst (mqttCallback p now' g')) = IDLE ->
         currentState g' = IDLE)
        /\ ~ In (ServoWrite SERVO_CLOSED_POSITION) (snd (mqttCallback p now' g'))
        /\ ~ In (Publish STATUS_TOPIC "closed") (snd (mqttCallback p now' g'))).
Proof.
  intro Ha.
  assert (Hp : processGateCommand a now g = (g, [])).
  { unfold processGateCommand; destruct (String.eqb_spec a "OPEN");
      [contradiction | reflexivity]. }
  split; [exact Hp | split; [intros; exact Hp|]].
  intros p now' g'.
  destruct p as [[gid [a'|] ts]|]; simpl;
    [| split; [auto | split; intros []] ..].
  unfold processGateCommand; destruct (String.eqb a' "OPEN");
    [| simpl; split; [auto | split; intros []]].
  destruct (GateState_eqb (currentState g') IDLE) eqn:E.
  - apply GateState_eqb_eq in E; rewrite openGate_eq; simpl.
    split; [intros; exact E|].
    split; intros [H|[H|H]]; discriminate || contradiction.
  - simpl; split; [auto | split; intros []].
Qed.

Lemma C7_only_open_action_witness :
  processGateCommand "CLOSE" 0 (mkGlobals OPEN 0 SERVO_OPEN_POSITION)
  = (mkGlobals OPEN 0 SERVO_OPEN_POSITION, []).
Proof.
  exact (proj1 (C7_only_open_action "CLOSE" 0
                  (mkGlobals OPEN 0 SERVO_OPEN_POSITION) ltac:(discriminate))).
Defined.

(** ** Boundary-state invariant *)

Lemma step_phase i g :
  phase_ok g ->
  phase_ok (fst (step i g))
  /\ ((oc_pubs (snd (step i g)) = []
       /\ currentState (fst (step i g)) = currentState g)
      \/ (currentState g = IDLE /\ currentState (fst (step i g)) = OPEN
          /\ oc_pubs (snd (step i g)) = ["open"])
      \/ (currentState g = OPEN /\ currentState (fst (step i g)) = IDLE
          /\ oc_pubs (snd (step i g)) = ["closed"])).
Proof.
  destruct g as [s t v]; unfold phase_ok; simpl; intros Hs.
  destruct i as [|now p|now]; simpl.
  - split; [exact Hs | left; auto].
  - destruct p as [[gid [a|] ts]|]; simpl; try (split; [exact Hs | left; auto]).
    unfold processGateCommand; destruct (String.eqb a "OPEN");
      [|simpl; split; [exact Hs | left; auto]].
    destruct Hs as [-> | ->]; simpl.
    + split; [right; reflexivity | right; left; auto].
    + split; [right; reflexivity | left; auto].
  - unfold updateGateState; simpl.
    destruct Hs as [-> | ->]; simpl; [split; [left; reflexivity | left; auto]|].
    destruct (_ >=? _); simpl.
    + split; [left; reflexivity | right; right; auto].
    + split; [right; reflexivity | left; auto].
Qed.

Lemma run_phase l g :
  phase_ok g ->
  phase_ok (fst (run l g))
  /\ alternates (GateState_eqb (currentState g) IDLE) (oc_pubs (snd (run l g)))
     = true.
Proof.
  revert g; induction l as [|i l IH]; intros g Hg; simpl; [split; auto|].
  unfold seq.
  pose proof (step_phase i g Hg) as [Hg1 Hcase].
  destruct (step i g) as [g1 e1]; simpl in *.
  destruct (IH g1 Hg1) as [Hg2 Halt].
  destruct (run l g1) as [g2 e2]; simpl in *.
  split; [exact Hg2|].
  rewrite oc_pubs_app.
  destruct Hcase as [[-> Hst] | [[Hs [Hs1 ->]] | [Hs [Hs1 ->]]]].
  - rewrite Hst in Halt; exact Halt.
  - rewrite Hs; rewrite Hs1 in Halt; simpl; exact Halt.
  - rewrite Hs; rewrite Hs1 in Halt; simpl; exact Halt.
Qed.

(** ** C8 *)

(** C8: over any run of the main loop from the boot state, the open/close
    status publications alternate ["open"], ["closed"], ["open"], ...:
    the first is an open, and each close follows exactly one open. *)
Theorem C8_open_close_alternate l :
  alternates true (oc_pubs (snd (run l init_globals))) = true.
Proof. exact (proj2 (run_phase l init_globals (or_introl eq_refl))). Qed.

(** ** C9 *)

(** C9: at every loop boundary reached from the boot state (after any
    sequence of reconnections, messages and ticks) the state is [IDLE] or
    [OPEN]; [OPENING] and [CLOSING] exist only inside [openGate] and
    [closeGate]. *)
Theorem C9_boundary_states l :
  currentState (fst (run l init_globals)) = IDLE
  \/ currentState (fst (run l init_globals)) = OPEN.
Proof. exact (proj1 (run_phase l init_globals (or_introl eq_refl))). Qed.

(** ** C10 *)

(** C10: a tick on a gate that is not [OPEN], or whose elapsed time is below
    the open duration, leaves the globals (state, [gateOpenTime], servo
    position) unchanged and has no effect; no tick ever changes
    [gateOpenTime]; and a loop event changes [gateOpenTime] only as the
    [IDLE] to [OPEN] transition of an accepted message, which sets it to that
    message's clock reading. *)
Theorem C10_tick_frame t g :
  (currentState g <> OPEN \/ ulong_sub t (gateOpenTime g) < GATE_OPEN_DURATION) ->
  updateGateState t g = (g, [])
  /\ (forall t' g', gateOpenTime (fst (updateGateState t' g')) = gateOpenTime g')
  /\ (forall i g',
        gateOpenTime (fst (step i g')) = gateOpenTime g'
        \/ (currentState g' = IDLE
            /\ exists now p, i = Message now p
                 /\ fst (step i g') = mkGlobals OPEN now SERVO_OPEN_POSITION)).
Proof.
  intro H.
  assert (Htick : forall t' g', gateOpenTime (fst (updateGateState t' g'))
                                = gateOpenTime g').
  { intros t' g'; unfold updateGateState.
    destruct (GateState_eqb (currentState g') OPEN); [|reflexivity].
    destruct (_ >=? _); [rewrite closeGate_eq|]; reflexivity. }
  split; [|split; [exact Htick|]].
  - destruct H as [H|H]; [apply tick_not_open | apply tick_before]; exact H.
  - intros [|now p|t'] g'; [left; reflexivity | | left; apply Htick].
    destruct p as [[gid [a|] ts]|]; simpl; try (left; reflexivity).
    unfold processGateCommand; destruct (String.eqb a "OPEN");
      [|left; reflexivity].
    destruct (GateState_eqb (currentState g') IDLE) eqn:E; [|left; reflexivity].
    right; apply GateState_eqb_eq in E; split; [exact E|].
    exists now, (Some (mkCommand gid (Some a) ts)); split; [reflexivity|].
    rewrite openGate_eq; reflexivity.
Qed.

Lemma C10_tick_frame_witness :
  updateGateState 4999 (mkGlobals OPEN 0 SERVO_OPEN_POSITION)
  = (mkGlobals OPEN 0 SERVO_OPEN_POSITION, [])
  /\ updateGateState 123456 init_globals = (init_globals, []).
Proof.
  split.
  - apply (C10_tick_frame 4999 (mkGlobals OPEN 0 SERVO_OPEN_POSITION)).
    right; apply Z.ltb_lt; vm_compute; reflexivity.
  - apply (C10_tick_frame 123456 init_globals).
    left; discriminate.
Defined.

(** * Further properties of main.cpp *)

(** ** setupWiFi *)

Lemma wifi_loop_spec fuel status a :
  (a <= wifi_loop fuel status a <= a + fuel)%nat
  /\ (status (wifi_loop fuel status a) = true \/ wifi_loop fuel status a = (a + fuel)%nat)
  /\ (forall i, (a <= i < wifi_loop fuel status a)%nat -> status i = false).
Proof.
  revert a; induction fuel as [|f IH]; intro a; simpl.
  - destruct (status a) eqn:E; repeat split; try lia; auto.
  - destruct (status a) eqn:E.
    + repeat split; try lia; auto.
    + destruct (IH (S a)) as [H1 [H2 H3]].
      repeat split; try lia.
      * destruct H2 as [H2|H2]; [left; exact H2 | right; lia].
      * intros i Hi. destruct (Nat.eq_dec i a) as [->|Hne]; [exact E|].
        apply H3; lia.
Qed.

Lemma delay_total_app e1 e2 : delay_total (e1 ++ e2) = delay_total e1 + delay_total e2.
Proof. induction e1 as [|[]]; simpl; lia. Qed.

Lemma delay_total_repeat n : delay_total (repeat (Delay 500) n) = 500 * Z.of_nat n.
Proof. induction n as [|n IH]; [reflexivity|]; rewrite Nat2Z.inj_succ; cbn [repeat delay_total]; lia. Qed.

(** setupWiFi waits at most 20 x 500 ms before deciding: at most 10 s of
    [delay] when it goes on, at most 15 s when it restarts; it restarts
    (as its last effect) exactly when it does not go on. *)
Theorem setupWiFi_bounded_wait status :
  delay_total (fst (setupWiFi status))
  <= (if snd (setupWiFi status) then 10000 else 15000)
  /\ (In Restart (fst (setupWiFi status)) <-> snd (setupWiFi status) = false).
Proof.
  destruct (wifi_loop_spec 20 status 0) as [[_ Hle] _].
  unfold setupWiFi; cbv zeta.
  set (r := wifi_loop 20 status 0) in *.
  destruct (status (S r)); cbn [fst snd].
  - rewrite delay_total_repeat; split; [lia|].
    split; [intro H; apply repeat_spec in H; discriminate | discriminate].
  - rewrite delay_total_app, delay_total_repeat; cbn [delay_total]; split; [lia|].
    split; [reflexivity | intros _; apply in_or_app; right; simpl; auto].
Qed.

(** With a WiFi status that stays connected once connected, setupWiFi goes
    on exactly when one of the first 22 [WiFi.status()] calls (21 in the
    loop, one final check) reports connected. *)
Theorem setupWiFi_monotone status :
  (forall i j, (i <= j)%nat -> status i = true -> status j = true) ->
  (snd (setupWiFi status) = true <-> exists k, (k <= 21)%nat /\ status k = true).
Proof.
  intro Hmono.
  destruct (wifi_loop_spec 20 status 0) as [[_ Hle] [Hr Hbefore]].
  unfold setupWiFi; cbv zeta.
  set (r := wifi_loop 20 status 0) in *.
  destruct (status (S r)) eqn:Ef; cbn [fst snd].
  - split; [intros _; exists (S r); split; [lia | exact Ef] | reflexivity].
  - split; [discriminate|].
    intros [k [Hk Hsk]].
    assert (Hr' : status r = false).
    { destruct (status r) eqn:E; [|reflexivity].
      rewrite (Hmono r (S r) ltac:(lia) E) in Ef; discriminate. }
    destruct Hr as [Hr|Hr]; [congruence|].
    simpl in Hr.
    destruct (Nat.lt_ge_cases k r) as [Hlt|Hge].
    + rewrite (Hbefore k ltac:(lia)) in Hsk; discriminate.
    + destruct (Nat.eq_dec k r) as [->|Hne]; [congruence|].
      assert (k = S r) by lia; subst k; congruence.
Qed.

Lemma setupWiFi_monotone_witness :
  snd (setupWiFi (fun k => Nat.leb 21 k)) = true.
Proof.
  apply (setupWiFi_monotone (fun k => Nat.leb 21 k)).
  - intros i j Hij Hi; apply Nat.leb_le; apply Nat.leb_le in Hi; lia.
  - exists 21%nat; split; [lia | reflexivity].
Defined.

(** When the first connected report comes at loop call [k0 <= 20] and the
    final check still reports connected, setupWiFi goes on after exactly
    [k0] delays of 500 ms. *)
Theorem setupWiFi_first_connect status k0 :
  (k0 <= 20)%nat ->
  status k0 = true ->
  (forall i, (i < k0)%nat -> status i = false) ->
  status (S k0) = true ->
  setupWiFi status = (repeat (Delay 500) k0, true).
Proof.
  intros Hk Hs Hb Hf.
  destruct (wifi_loop_spec 20 status 0) as [[_ Hle] [Hr Hbefore]].
  assert (Heq : wifi_loop 20 status 0 = k0).
  { destruct (Nat.lt_total (wifi_loop 20 status 0) k0) as [Hlt|[Heq|Hgt]].
    - destruct Hr as [Hr|Hr]; [rewrite (Hb _ Hlt) in Hr; discriminate | lia].
    - exact Heq.
    - rewrite (Hbefore k0 ltac:(lia)) in Hs; discriminate. }
  unfold setupWiFi; rewrite Heq, Hf; reflexivity.
Qed.

Lemma setupWiFi_first_connect_witness :
  setupWiFi (fun k => Nat.leb 3 k) = (repeat (Delay 500) 3, true).
Proof.
  apply setupWiFi_first_connect; try reflexivity; [lia|].
  intros i Hi; apply Nat.leb_gt; exact Hi.
Defined.

(** ** reconnectMQTT and setup *)

(** Every effect list of the reconnect loop is a sequence of 5 s waits
    (failed connects) and subscribe-then-publish-online pairs (successful
    connects): the online status is always published right after the
    subscription to the command topic, whether or not it succeeded. *)
Theorem reconnect_loop_blocks oracle es :
  reconnect_loop oracle = Some es ->
  exists bs, Forall reconnect_block bs /\ es = concat bs.
Proof.
  revert es; induction oracle as [|[c ok] oracle IH]; intros es H; simpl in H;
    [discriminate|].
  destruct c; [injection H as <-; exists []; split; constructor|].
  destruct (reconnect_loop oracle) as [es'|] eqn:E; simpl in H; [|destruct ok; discriminate].
  destruct (IH es' eq_refl) as [bs [Hbs ->]].
  destruct ok; injection H as <-.
  - exists ([Subscribe MQTT_TOPIC; Gate (Publish STATUS_TOPIC "online")] :: bs).
    split; [constructor; [right; reflexivity | exact Hbs] | reflexivity].
  - exists ([Delay 5000] :: bs).
    split; [constructor; [left; reflexivity | exact Hbs] | reflexivity].
Qed.

Lemma reconnect_loop_blocks_witness :
  exists bs, Forall reconnect_block bs
             /\ [Delay 5000; Subscribe MQTT_TOPIC; Gate (Publish STATUS_TOPIC "online")]
                = concat bs.
Proof.
  apply (reconnect_loop_blocks [(false, false); (false, true); (true, true)]).
  reflexivity.
Defined.

(** After [n] failed connects and one successful connect that holds, the
    reconnect loop waits [n] times 5 s, subscribes and publishes the online
    status once; its gate effects are exactly those of [reconnectMQTT],
    which leaves the gate globals unchanged. *)
Theorem reconnect_loop_success n b rest g :
  reconnect_loop (repeat (false, false) n ++ (false, true) :: (true, b) :: rest)
  = Some (repeat (Delay 5000) n
          ++ [Subscribe MQTT_TOPIC; Gate (Publish STATUS_TOPIC "online")])
  /\ gate_effects (repeat (Delay 5000) n
                   ++ [Subscribe MQTT_TOPIC; Gate (Publish STATUS_TOPIC "online")])
     = snd (reconnectMQTT g)
  /\ fst (reconnectMQTT g) = g.
Proof.
  split; [|split; [induction n as [|n IH]; [reflexivity | exact IH] | reflexivity]].
  induction n as [|n IH]; [reflexivity|].
  simpl; simpl in IH; rewrite IH; reflexivity.
Qed.





(** ** mqttCallback at the byte level *)




(** ** loop *)


Lemma step_servo i g :
  servo_consistent g -> servo_consistent (fst (step i g)).
Proof.
  unfold servo_consistent; destruct g as [s t v]; simpl; intro H.
  destruct i as [|now p|now]; simpl; [exact H| |].
  - destruct p as [[gid [a|] ts]|]; simpl; try exact H.
    unfold processGateCommand; destruct (String.eqb a "OPEN"); [|exact H].
    destruct H as [[-> ->]|[-> ->]]; simpl; [right|right]; auto.
  - unfold updateGateState; simpl.
    destruct H as [[-> ->]|[-> ->]]; simpl; [left; auto|].
    destruct (_ >=? _); simpl; [left|right]; auto.
Qed.

(** At every loop boundary reached from the boot state the servo position
    agrees with the gate state: 0 degrees when [IDLE], 90 when [OPEN]. *)
Theorem servo_consistent_run l :
  servo_consistent (fst (run l init_globals)).
Proof.
  assert (H : forall g, servo_consistent g -> servo_consistent (fst (run l g))).
  { induction l as [|i l IH]; intros g Hg; simpl; [exact Hg|].
    unfold seq; pose proof (step_servo i g Hg) as H1.
    destruct (step i g) as [g1 e1]; simpl in H1.
    specialize (IH g1 H1); destruct (run l g1); exact IH. }
  apply H; left; split; reflexivity.
Qed.

(** The effects of any run, from any state, are a sequence of whole blocks:
    servo-to-open then ["open"], servo-to-closed then ["closed"], or the
    online publication; a servo write is always followed by its status
    publication. *)
Theorem run_effect_blocks l g :
  exists bs, Forall effect_block bs /\ snd (run l g) = concat bs.
Proof.
  assert (Hstep : forall i g, snd (step i g) = []
                              \/ effect_block (snd (step i g))).
  { intros [|now p|now] g'; simpl.
    - right; right; right; reflexivity.
    - destruct p as [[gid [a|] ts]|]; simpl; try (left; reflexivity).
      unfold processGateCommand; destruct (String.eqb a "OPEN"); [|left; reflexivity].
      destruct (GateState_eqb (currentState g') IDLE); [|left; reflexivity].
      right; left; rewrite openGate_eq; reflexivity.
    - unfold updateGateState.
      destruct (GateState_eqb (currentState g') OPEN); [|left; reflexivity].
      destruct (_ >=? _); [|left; reflexivity].
      right; right; left; rewrite closeGate_eq; reflexivity. }
  revert g; induction l as [|i l IH]; intro g; simpl.
  - exists []; split; constructor.
  - unfold seq; pose proof (Hstep i g) as Hs.
    destruct (step i g) as [g1 e1]; simpl in Hs.
    destruct (IH g1) as [bs [Hbs He]].
    destruct (run l g1) as [g2 e2]; simpl in He |- *; subst e2.
    destruct Hs as [->|Hb].
    + exists bs; split; [exact Hbs | reflexivity].
    + exists (e1 :: bs); split; [constructor; assumption | reflexivity].
Qed.
